(** * Account REST API service: a shallow embedding of [service/routes.py]

    The six request handlers and the content-type guard of
    [service/routes.py] are embedded as functions in a state-and-exception
    monad over the account table.  The persistence layer
    ([service/models.py]), the status constants ([service/common/status.py])
    and the application's error handlers live in other files of the
    service; they are modelled from the specification and marked as such.

    Conventions.
    - Request parsing belongs to the framework: a request carries what the
      framework makes of its body, either the parsed JSON document or the
      reason why [request.get_json()] aborts the request.
    - JSON numbers are integers; floating point is left out.
    - Logging and the time stamps formatted only for log lines are left out:
      they never reach a response or the table. *)

From Stdlib Require Import ZArith.
From stdpp Require Import gmap strings list fin_maps.

Set Warnings "-register-all".

Local Open Scope Z_scope.
Local Open Scope string_scope.

(** ** JSON documents and Python values *)

Inductive json : Type :=
  | JNull
  | JBool (b : bool)
  | JNum (n : Z)
  | JStr (s : string)
  | JArr (items : list json)
  | JObj (members : list (string * json)).

(** Python truthiness, as used by [if x:] and [if not x:]. *)
Definition truthy (v : json) : bool :=
  match v with
  | JNull => false
  | JBool b => b
  | JNum n => negb (n =? 0)%Z
  | JStr s => negb (String.eqb s "")
  | JArr items => match items with [] => false | _ :: _ => true end
  | JObj members => match members with [] => false | _ :: _ => true end
  end.

(** Lookup of a key in a dict given by its items. *)
Fixpoint dict_get {A : Type} (key : string) (items : list (string * A)) : option A :=
  match items with
  | [] => None
  | (k, v) :: rest => if String.eqb k key then Some v else dict_get key rest
  end.

(** [data[key]]: [None] stands for the failure of the subscript, be it a
    missing key or a payload that is no mapping at all. *)
Definition json_item (data : json) (key : string) : option json :=
  match data with
  | JObj members => dict_get key members
  | _ => None
  end.

(** Exceptions that travel through the handlers. *)
Inductive exn : Type :=
  | HTTPException (code : Z) (description : string)
  | DataValidationError (field : string)
  | TypeError (message : string).

Definition exn_type_name (e : exn) : string :=
  match e with
  | HTTPException _ _ => "HTTPException"
  | DataValidationError _ => "DataValidationError"
  | TypeError _ => "TypeError"
  end.

(** A Python value handed to [jsonify]: JSON data, an exception object, or a
    dict whose values are again such values. *)
Inductive pyval : Type :=
  | PJson (j : json)
  | PExc (e : exn)
  | PDict (items : list (string * pyval)).

Inductive result (A : Type) : Type :=
  | Ok (a : A)
  | Raise (e : exn).
Arguments Ok {A} a.
Arguments Raise {A} e.

(** The framework's JSON encoder: data is encoded as it is, a dict entry by
    entry, and an object that is no JSON data (here: an exception instance)
    makes the encoder raise [TypeError]. *)
Fixpoint json_dumps (v : pyval) : result json :=
  match v with
  | PJson j => Ok j
  | PExc e =>
      Raise (TypeError ("Object of type " ++ exn_type_name e ++ " is not JSON serializable"))
  | PDict items =>
      let fix members (l : list (string * pyval)) : result (list (string * json)) :=
        match l with
        | [] => Ok []
        | (k, x) :: rest =>
            match json_dumps x with
            | Ok j =>
                match members rest with
                | Ok js => Ok ((k, j) :: js)
                | Raise e => Raise e
                end
            | Raise e => Raise e
            end
        end in
      match members items with
      | Ok js => Ok (JObj js)
      | Raise e => Raise e
      end
  end.

(** ** The state-and-exception monad of a request *)

Definition M (S A : Type) : Type := S -> result A * S.

Definition ret {S A : Type} (a : A) : M S A := fun st => (Ok a, st).

Definition raise {S A : Type} (e : exn) : M S A := fun st => (Raise e, st).

Definition bind {S A B : Type} (m : M S A) (k : A -> M S B) : M S B :=
  fun st =>
    match m st with
    | (Ok a, st') => k a st'
    | (Raise e, st') => (Raise e, st')
    end.

Definition lift {S A : Type} (r : result A) : M S A := fun st => (r, st).

(** [try: m except Exception as e: h e] *)
Definition try_except {S A : Type} (m : M S A) (h : exn -> M S A) : M S A :=
  fun st =>
    match m st with
    | (Ok a, st') => (Ok a, st')
    | (Raise e, st') => h e st'
    end.

Notation "'let*' x ':=' m 'in' k" := (bind m (fun x => k))
  (at level 10, x name, m at level 100, k at level 200).

(** ** HTTP requests and responses *)

Definition ascii_lower (a : Ascii.ascii) : Ascii.ascii :=
  let n := Ascii.nat_of_ascii a in
  if ((65 <=? n)%nat && (n <=? 90)%nat)%bool then Ascii.ascii_of_nat (n + 32) else a.

Fixpoint lower (s : string) : string :=
  match s with
  | EmptyString => EmptyString
  | String a rest => String (ascii_lower a) (lower rest)
  end.

(** What the framework makes of the body of a request when the handler
    calls [request.get_json()]: the parsed document, for a body that is
    declared as JSON and parses (the document may be [null]); a bad request,
    for a body that is absent or does not parse; an unsupported media type,
    for a body that is not declared as JSON and that the framework refuses
    to parse (versions that answer 400 there are the bad request). *)
Inductive json_input : Type :=
  | Document (doc : json)
  | BadRequest
  | UnsupportedMediaType.

Record request : Type := {
  headers : list (string * string);
  json_body : json_input
}.

(** [request.headers.get(name)]: header names compare without regard to
    case, values are returned untouched. *)
Fixpoint header_lookup (name : string) (hs : list (string * string)) : option string :=
  match hs with
  | [] => None
  | (k, v) :: rest =>
      if String.eqb (lower k) (lower name) then Some v else header_lookup name rest
  end.

Definition headers_get (name : string) (req : request) : option string :=
  header_lookup name (headers req).

Record response : Type := {
  body : json;
  status_code : Z;
  response_headers : list (string * string)
}.

Definition make_response (b : json) (code : Z) (hs : list (string * string)) : response :=
  {| body := b; status_code := code; response_headers := hs |}.

Definition jsonify {S : Type} (v : pyval) : M S json := lift (json_dumps v).

(** Modelled from the spec: the constants of [service/common/status.py],
    which the handlers name and the specification gives by number. *)
Module status.
Definition HTTP_200_OK : Z := 200.
Definition HTTP_201_CREATED : Z := 201.
Definition HTTP_204_NO_CONTENT : Z := 204.
Definition HTTP_400_BAD_REQUEST : Z := 400.
Definition HTTP_404_NOT_FOUND : Z := 404.
Definition HTTP_405_METHOD_NOT_ALLOWED : Z := 405.
Definition HTTP_409_CONFLICT : Z := 409.
Definition HTTP_415_UNSUPPORTED_MEDIA_TYPE : Z := 415.
Definition HTTP_500_INTERNAL_SERVER_ERROR : Z := 500.
End status.

(** [abort(code, description)] *)
Definition abort {S A : Type} (code : Z) (description : string) : M S A :=
  raise (HTTPException code description).

(** [request.get_json()]: the parsed document, or the abort of the request
    with 400 or 415 when there is no document to return. *)
Definition get_json {S : Type} (req : request) : M S json :=
  match json_body req with
  | Document doc => ret doc
  | BadRequest =>
      abort status.HTTP_400_BAD_REQUEST "Failed to decode JSON object"
  | UnsupportedMediaType =>
      abort status.HTTP_415_UNSUPPORTED_MEDIA_TYPE
        "Did not attempt to load JSON data"
  end.

(** Modelled from the spec: the application's error handlers, which
    [service/routes.py] does not define.  An aborted request answers with
    the code it was aborted with, a deserialization error is a client error
    (400), and any other exception that leaves a handler is a server fault
    (500). *)
Definition error_status (e : exn) : Z :=
  match e with
  | HTTPException code _ => code
  | DataValidationError _ => status.HTTP_400_BAD_REQUEST
  | TypeError _ => status.HTTP_500_INTERNAL_SERVER_ERROR
  end.

(** The status code a client sees for the outcome of a handler. *)
Definition status_of (r : result response) : Z :=
  match r with
  | Ok resp => status_code resp
  | Raise e => error_status e
  end.

(** ** Dates

    The date library is an interface: the type of dates, the parser of the
    [date_joined] entry of a payload, the ISO rendering and today's date.
    The specification gives the parser no failure mode, so it is total
    here. *)
Class DateLib : Type := {
  date : Type;
  date_fromisoformat : json -> date;
  date_isoformat : date -> string;
  date_today : date
}.

(** An instance that represents a date by its ISO text. *)
Definition iso_text_dates : DateLib := {|
  date := string;
  date_fromisoformat := fun v => match v with JStr s => s | _ => "" end;
  date_isoformat := fun d => d;
  date_today := "2026-01-01"
|}.

(** ** The Account entity and its persistence operations *)

(** Modelled from the spec: the [Account] class of [service/models.py] and
    the relational table behind it. *)
Module Account.
Section WithDates.
Context {D : DateLib}.

(** Modelled from the spec: a row of the table, the five attributes next to
    the primary key. *)
Record row : Type := {
  row_name : json;
  row_email : json;
  row_address : json;
  row_phone_number : json;
  row_date_joined : date
}.

(** Modelled from the spec: the store.  [table] maps the server-assigned
    [id] to the row it identifies; [next_id] is the sequence the store draws
    the id of the next insert from. *)
Record store : Type := {
  table : gmap Z row;
  next_id : Z
}.

(** Modelled from the spec: the in-memory record of one request, with the
    six attributes of an Account; [id] is absent until the store assigns
    it. *)
Record t : Type := {
  id : option Z;
  name : json;
  email : json;
  address : json;
  phone_number : json;
  date_joined : date
}.

(** The store is well formed when every stored id was drawn from the
    sequence before. *)
Definition well_formed (st : store) : Prop :=
  ∀ i, is_Some (table st !! i) → i < next_id st.

Definition to_row (self : t) : row :=
  {| row_name := name self;
     row_email := email self;
     row_address := address self;
     row_phone_number := phone_number self;
     row_date_joined := date_joined self |}.

Definition of_row (i : Z) (r : row) : t :=
  {| id := Some i;
     name := row_name r;
     email := row_email r;
     address := row_address r;
     phone_number := row_phone_number r;
     date_joined := row_date_joined r |}.

(** Modelled from the spec: [Account()], a record that has no id yet and
    whose [date_joined] is defaulted to the creation date. *)
Definition new : t :=
  {| id := None;
     name := JNull;
     email := JNull;
     address := JNull;
     phone_number := JNull;
     date_joined := date_today |}.

Definition required_fields : list string :=
  ["name"; "email"; "address"; "phone_number"].

(** Modelled from the spec: [serialize()], the mapping of all six
    attributes, [date_joined] as an ISO date string.  It never fails. *)
Definition serialize (self : t) : json :=
  JObj [("id", match id self with Some i => JNum i | None => JNull end);
        ("name", name self);
        ("email", email self);
        ("address", address self);
        ("phone_number", phone_number self);
        ("date_joined", JStr (date_isoformat (date_joined self)))].

(** Modelled from the spec: [deserialize(payload)].  It fails with an error
    that names the missing field when one of the required fields is absent
    from the payload; [date_joined] is parsed when present and left as it
    is when absent; other entries are ignored; the store is not touched. *)
Definition deserialize (self : t) (data : json) : result t :=
  match json_item data "name" with
  | None => Raise (DataValidationError "name")
  | Some n =>
      match json_item data "email" with
      | None => Raise (DataValidationError "email")
      | Some e =>
          match json_item data "address" with
          | None => Raise (DataValidationError "address")
          | Some a =>
              match json_item data "phone_number" with
              | None => Raise (DataValidationError "phone_number")
              | Some p =>
                  Ok {| id := id self;
                        name := n;
                        email := e;
                        address := a;
                        phone_number := p;
                        date_joined :=
                          match json_item data "date_joined" with
                          | Some d => date_fromisoformat d
                          | None => date_joined self
                          end |}
              end
          end
      end
  end.

(** Modelled from the spec: [create()] inserts a new row for the record and
    back-fills the id the store assigns. *)
Definition create (self : t) : M store t :=
  fun st =>
    let i := next_id st in
    (Ok {| id := Some i;
           name := name self;
           email := email self;
           address := address self;
           phone_number := phone_number self;
           date_joined := date_joined self |},
     {| table := <[i := to_row self]> (table st); next_id := i + 1 |}).

(** Modelled from the spec: [update()] persists the in-memory values to the
    existing row that matches [id]. *)
Definition update (self : t) : M store unit :=
  fun st =>
    match id self with
    | Some i =>
        match table st !! i with
        | Some _ =>
            (Ok tt, {| table := <[i := to_row self]> (table st); next_id := next_id st |})
        | None => (Ok tt, st)
        end
    | None => (Ok tt, st)
    end.

(** Modelled from the spec: [delete()] removes the row that matches [id]. *)
Definition delete (self : t) : M store unit :=
  fun st =>
    match id self with
    | Some i => (Ok tt, {| table := base.delete i (table st); next_id := next_id st |})
    | None => (Ok tt, st)
    end.

(** Modelled from the spec: [find(id)] returns the record that matches
    [id], or [None] when there is none; that is no error. *)
Definition find (i : Z) : M store (option t) :=
  fun st => (Ok (of_row i <$> table st !! i), st).

(** Modelled from the spec: [all()] returns the sequence of all records. *)
Definition all : M store (list t) :=
  fun st => (Ok ((fun kr => of_row kr.1 kr.2) <$> map_to_list (table st)), st).

End WithDates.
End Account.

(** ** The handlers of [service/routes.py] *)
Section Routes.
Context {D : DateLib}.

Abbreviation handler := (M Account.store response).

(** [check_content_type(media_type)] *)
Definition check_content_type (media_type : string) (req : request) : M Account.store unit :=
  let content_type := headers_get "Content-Type" req in
  match content_type with
  | Some ct =>
      if (negb (String.eqb ct "") && String.eqb ct media_type)%bool
      then ret tt
      else abort status.HTTP_415_UNSUPPORTED_MEDIA_TYPE ("Content-Type must be " ++ media_type)
  | None => abort status.HTTP_415_UNSUPPORTED_MEDIA_TYPE ("Content-Type must be " ++ media_type)
  end.

(** [GET /health] *)
Definition health : handler :=
  let* b := jsonify (PJson (JObj [("status", JStr "OK")])) in
  ret (make_response b status.HTTP_200_OK []).

(** [GET /] *)
Definition index : handler :=
  let* b := jsonify (PJson (JObj [("name", JStr "Account REST API Service");
                             ("version", JStr "1.0")])) in
  ret (make_response b status.HTTP_200_OK []).

(** [POST /accounts] *)
Definition create_accounts (req : request) : handler :=
  let* _ := check_content_type "application/json" req in
  let account := Account.new in
  let* data := get_json req in
  let* account := lift (Account.deserialize account data) in
  let* account := Account.create account in
  let message := Account.serialize account in
  let location_url := "/" in
  let* b := jsonify (PJson message) in
  ret (make_response b status.HTTP_201_CREATED [("Location", location_url)]).

(** [GET /accounts] *)
Definition read_accounts : handler :=
  let* accounts := Account.all in
  match accounts with
  | _ :: _ =>
      let accounts_json := Account.serialize <$> accounts in
      let* b := jsonify (PJson (JArr accounts_json)) in
      ret (make_response b status.HTTP_200_OK [])
  | [] =>
      let* b := jsonify (PJson (JObj [("error", JStr "accounts not found")])) in
      ret (make_response b status.HTTP_404_NOT_FOUND [])
  end.

(** [GET /accounts/<int:id>] *)
Definition read_account (id : Z) : handler :=
  let* account := Account.find id in
  match account with
  | Some account =>
      let* b := jsonify (PJson (Account.serialize account)) in
      ret (make_response b status.HTTP_200_OK [])
  | None =>
      let* b := jsonify (PJson (JObj [("error", JStr "account not found")])) in
      ret (make_response b status.HTTP_404_NOT_FOUND [])
  end.

(** [PUT /accounts/<int:id>] *)
Definition update_account (id : Z) (req : request) : handler :=
  let* data := get_json req in
  if negb (truthy data) then
    let* b := jsonify (PJson (JObj [("error", JStr "id not found")])) in
    ret (make_response b status.HTTP_405_METHOD_NOT_ALLOWED [])
  else
    let* ac := Account.find id in
    match ac with
    | None =>
        let* b := jsonify (PJson (JObj [("error", JStr "id not found")])) in
        ret (make_response b status.HTTP_404_NOT_FOUND [])
    | Some ac =>
        (* only the call of deserialize is inside the try block; its except
           branch returns from the handler *)
        let* outcome :=
          try_except
            (let* data := get_json req in
             let* ac := lift (Account.deserialize ac data) in
             ret (inr ac))
            (fun e =>
               let* b := jsonify (PDict [("error", PJson (JStr "attribute error"));
                                         ("details", PExc e)]) in
               ret (inl (make_response b status.HTTP_409_CONFLICT []))) in
        match outcome with
        | inl returned => ret returned
        | inr ac =>
            let* _ := Account.update ac in
            let* b := jsonify (PJson (Account.serialize ac)) in
            ret (make_response b status.HTTP_200_OK [])
        end
    end.

(** [DELETE /accounts/<int:id>] *)
Definition delete_account (id : Z) : handler :=
  let* ac := Account.find id in
  match ac with
  | None =>
      let* b := jsonify (PJson (JObj [("error", JStr "id not found")])) in
      ret (make_response b status.HTTP_404_NOT_FOUND [])
  | Some ac =>
      let* _ := Account.delete ac in
      ret (make_response (JObj []) status.HTTP_204_NO_CONTENT [])
  end.

End Routes.

(** ** Sample requests and stores *)

Definition json_headers : list (string * string) :=
  [("Content-Type", "application/json")].

Definition full_payload : json :=
  JObj [("name", JStr "benjamin");
        ("email", JStr "benjamin@gmail.com");
        ("address", JStr "12 Harbour Road");
        ("phone_number", JStr "555-0199")].

Definition city_payload : json := JObj [("city", JStr "goda")].

Definition full_request : request :=
  {| headers := json_headers; json_body := Document full_payload |}.

Definition city_request : request :=
  {| headers := json_headers; json_body := Document city_payload |}.

Definition empty_request : request :=
  {| headers := json_headers; json_body := Document (JObj []) |}.

(** A request whose body is the JSON document [null]. *)
Definition null_request : request :=
  {| headers := json_headers; json_body := Document JNull |}.

(** A request that declares JSON and has no body at all. *)
Definition absent_body_request : request :=
  {| headers := json_headers; json_body := BadRequest |}.

(** A request with a body that is not declared as JSON. *)
Definition undeclared_request : request :=
  {| headers := [("Content-Type", "text/plain")]; json_body := UnsupportedMediaType |}.

Definition html_request : request :=
  {| headers := [("Content-Type", "test/html")]; json_body := Document full_payload |}.

Definition charset_request : request :=
  {| headers := [("Content-Type", "application/json; charset=utf-8")];
     json_body := Document full_payload |}.

Definition name_only_request : request :=
  {| headers := json_headers;
     json_body := Document (JObj [("name", JStr "not enough data")]) |}.

Section Samples.
Context {D : DateLib}.

Definition alice : Account.row :=
  {| Account.row_name := JStr "alice";
     Account.row_email := JStr "alice@example.com";
     Account.row_address := JStr "1 Main Street";
     Account.row_phone_number := JStr "555-0100";
     Account.row_date_joined := date_today |}.

Definition benjamin : Account.row :=
  {| Account.row_name := JStr "benjamin";
     Account.row_email := JStr "benjamin@gmail.com";
     Account.row_address := JStr "12 Harbour Road";
     Account.row_phone_number := JStr "555-0199";
     Account.row_date_joined := date_today |}.

Definition empty_store : Account.store :=
  {| Account.table := ∅; Account.next_id := 1 |}.

Definition alice_store : Account.store :=
  {| Account.table := {[ 1 := alice ]}; Account.next_id := 2 |}.

Definition two_account_store : Account.store :=
  {| Account.table := <[ 2 := benjamin ]> (Account.table alice_store);
     Account.next_id := 3 |}.

Definition updated_store : Account.store :=
  {| Account.table := <[ 1 := benjamin ]> (Account.table alice_store);
     Account.next_id := 2 |}.

(** The records a factory hands to the test suite: they have no id yet. *)
Definition alice_account : Account.t :=
  {| Account.id := None;
     Account.name := JStr "alice";
     Account.email := JStr "alice@example.com";
     Account.address := JStr "1 Main Street";
     Account.phone_number := JStr "555-0100";
     Account.date_joined := date_today |}.

Definition benjamin_account : Account.t :=
  {| Account.id := None;
     Account.name := JStr "benjamin";
     Account.email := JStr "benjamin@gmail.com";
     Account.address := JStr "12 Harbour Road";
     Account.phone_number := JStr "555-0199";
     Account.date_joined := date_today |}.

End Samples.

Definition blank_type_request : request :=
  {| headers := [("Content-Type", "")]; json_body := Document full_payload |}.

Definition plain_text_request : request :=
  {| headers := [("content-type", "text/plain")]; json_body := Document full_payload |}.

(** The body shared by three error responses. *)
Definition id_not_found : json := JObj [("error", JStr "id not found")].

(** ** The test client and the bulk helper of [tests/test_routes.py] *)

(** [self.client.post(url, json=payload)] and [self.client.put(url,
    json=payload)]: the client sends the payload as the JSON document of the
    request and declares the JSON content type. *)
Definition client_json (payload : json) : request :=
  {| headers := [("Content-Type", "application/json")];
     json_body := Document payload |}.

Section TestHelpers.
Context {D : DateLib}.

(** [account.id = value]: assignment to the id of an in-memory record. *)
Definition set_id (value : option Z) (account : Account.t) : Account.t :=
  {| Account.id := value;
     Account.name := Account.name account;
     Account.email := Account.email account;
     Account.address := Account.address account;
     Account.phone_number := Account.phone_number account;
     Account.date_joined := Account.date_joined account |}.

(** The date library round trip: parsing the ISO text of a date gives the
    date back, as [date.fromisoformat(d.isoformat()) == d] in Python. *)
Definition date_round_trip : Prop :=
  ∀ d : date, date_fromisoformat (JStr (date_isoformat d)) = d.

(** The id read back from a response document: a number, or nothing. *)
Definition id_of_json (v : json) : option Z :=
  match v with
  | JNum i => Some i
  | _ => None
  end.

(** [_create_accounts(count)], the factory method of the test suite.  The
    accounts the factory yields are given as a list, [count] being its
    length.  Each one is posted in turn; the helper stops at the first answer
    that is not 201 (its assertion) and otherwise stores the id of the
    answer in the account and collects it.  [None] is the failed
    assertion. *)
Fixpoint _create_accounts (factory : list Account.t) (st : Account.store)
    : option (list Account.t) * Account.store :=
  match factory with
  | [] => (Some [], st)
  | account :: rest =>
      let '(outcome, st1) := create_accounts (client_json (Account.serialize account)) st in
      match outcome with
      | Ok response =>
          if (status_code response =? status.HTTP_201_CREATED)%Z then
            let new_account := body response in
            match json_item new_account "id" with
            | Some v =>
                let account := set_id (id_of_json v) account in
                match _create_accounts rest st1 with
                | (Some accounts, st2) => (Some (account :: accounts), st2)
                | (None, st2) => (None, st2)
                end
            | None => (None, st1)
            end
          else (None, st1)
      | Raise _ => (None, st1)
      end
  end.

End TestHelpers.

(** * Properties *)

Section Properties.
Context {D : DateLib}.

Implicit Types (st : Account.store) (req : request) (i : Z) (data : json).

Ltac in_required :=
  unfold Account.required_fields; rewrite !elem_of_cons; tauto.

Ltac run_monad :=
  unfold bind, ret, lift, raise, abort, jsonify, try_except,
    Account.find, Account.update, Account.delete, Account.create, Account.all;
  simpl.

(** *** The deserializer *)

Lemma deserialize_all_present (self : Account.t) data (n e a p : json) :
  json_item data "name" = Some n →
  json_item data "email" = Some e →
  json_item data "address" = Some a →
  json_item data "phone_number" = Some p →
  Account.deserialize self data =
    Ok {| Account.id := Account.id self;
          Account.name := n;
          Account.email := e;
          Account.address := a;
          Account.phone_number := p;
          Account.date_joined :=
            match json_item data "date_joined" with
            | Some d => date_fromisoformat d
            | None => Account.date_joined self
            end |}.
Proof.
  intros Hn He Ha Hp. unfold Account.deserialize.
  by rewrite Hn, He, Ha, Hp.
Qed.

Lemma deserialize_missing (self : Account.t) data (f : string) :
  f ∈ Account.required_fields →
  json_item data f = None →
  ∃ f', f' ∈ Account.required_fields ∧ json_item data f' = None ∧
        Account.deserialize self data = Raise (DataValidationError f').
Proof.
  intros Hf Hnone. unfold Account.deserialize.
  destruct (json_item data "name") eqn:Hn;
    [| exists "name"; repeat split; [in_required | done]].
  destruct (json_item data "email") eqn:He;
    [| exists "email"; repeat split; [in_required | done]].
  destruct (json_item data "address") eqn:Ha;
    [| exists "address"; repeat split; [in_required | done]].
  destruct (json_item data "phone_number") eqn:Hp;
    [| exists "phone_number"; repeat split; [in_required | done]].
  unfold Account.required_fields in Hf.
  repeat match goal with
         | H : _ ∈ _ :: _ |- _ => apply elem_of_cons in H as [-> | H]; [congruence |]
         end.
  by apply elem_of_nil in Hf.
Qed.

Lemma deserialize_keeps_id (self self' : Account.t) data :
  Account.deserialize self data = Ok self' → Account.id self' = Account.id self.
Proof.
  unfold Account.deserialize. intros H.
  repeat match type of H with
         | context [match json_item ?d ?k with _ => _ end] =>
             destruct (json_item d k); try discriminate
         end; by inversion H.
Qed.

(** A payload that has an entry is a non-empty mapping, hence truthy. *)
Lemma json_item_truthy data (k : string) (v : json) :
  json_item data k = Some v → truthy data = true.
Proof.
  destruct data as [| | | | |members]; try discriminate.
  by destruct members.
Qed.

(** The falsy JSON documents: [null] and the empty ones. *)
Lemma falsy_documents :
  truthy JNull = false ∧ truthy (JObj []) = false ∧ truthy (JArr []) = false ∧
  truthy (JStr "") = false ∧ truthy (JNum 0) = false ∧ truthy (JBool false) = false.
Proof. by repeat split. Qed.

(** *** The store invariant *)

Lemma create_well_formed (self : Account.t) st :
  Account.well_formed st → Account.well_formed (Account.create self st).2.
Proof.
  intros Hwf j. unfold Account.create. simpl.
  rewrite lookup_insert. case_decide as Hj.
  - subst j. lia.
  - intros Hsome. specialize (Hwf j Hsome). lia.
Qed.

(** A created row takes an id no stored row has: the rows that were
    there stay as they are. *)
Lemma create_keeps_rows (self : Account.t) st j (r : Account.row) :
  Account.well_formed st →
  Account.table st !! j = Some r →
  Account.table (Account.create self st).2 !! j = Some r.
Proof.
  intros Hwf Hj. unfold Account.create. simpl.
  rewrite lookup_insert_ne; [done |].
  intros <-. specialize (Hwf (Account.next_id st)). rewrite Hj in Hwf.
  specialize (Hwf (mk_is_Some _ _ eq_refl)). lia.
Qed.

Lemma update_well_formed (self : Account.t) st :
  Account.well_formed st → Account.well_formed (Account.update self st).2.
Proof.
  intros Hwf. unfold Account.update.
  destruct (Account.id self) as [i|]; [| done].
  destruct (Account.table st !! i) eqn:Hi; [| done].
  intros j. simpl. rewrite lookup_insert. case_decide as Hj.
  - subst j. intros _. apply Hwf. by rewrite Hi.
  - apply Hwf.
Qed.

Lemma delete_well_formed (self : Account.t) st :
  Account.well_formed st → Account.well_formed (Account.delete self st).2.
Proof.
  intros Hwf. unfold Account.delete.
  destruct (Account.id self) as [i|]; [| done].
  intros j. simpl. rewrite lookup_delete. case_decide; [by intros [? ?] |].
  apply Hwf.
Qed.

(** *** The content-type guard *)

Lemma check_content_type_pass req st :
  headers_get "Content-Type" req = Some "application/json" →
  check_content_type "application/json" req st = (Ok tt, st).
Proof. intros H. unfold check_content_type. by rewrite H. Qed.

Lemma check_content_type_abort req st :
  headers_get "Content-Type" req ≠ Some "application/json" →
  check_content_type "application/json" req st =
    (Raise (HTTPException 415 "Content-Type must be application/json"), st).
Proof.
  intros H. unfold check_content_type.
  destruct (headers_get "Content-Type" req) as [ct|] eqn:Hct; [|done].
  destruct (String.eqb ct "application/json") eqn:Heq.
  - apply String.eqb_eq in Heq. congruence.
  - by rewrite andb_false_r.
Qed.

(** C2: the guard of [POST /accounts] passes exactly when the Content-Type
    header is present and equal to the text application/json; in every other
    case the request is aborted with 415 before the payload is deserialized
    or a row is created, and the store is left as it was. *)
Theorem create_content_type_guard req st :
  (check_content_type "application/json" req st = (Ok tt, st) ↔
     headers_get "Content-Type" req = Some "application/json") ∧
  (headers_get "Content-Type" req ≠ Some "application/json" →
     create_accounts req st =
       (Raise (HTTPException 415 "Content-Type must be application/json"), st) ∧
     status_of (create_accounts req st).1 = 415).
Proof.
  split; [split |].
  - intros Hpass.
    destruct (decide (headers_get "Content-Type" req = Some "application/json"))
      as [|Hne]; [done |].
    rewrite (check_content_type_abort _ _ Hne) in Hpass. discriminate.
  - apply check_content_type_pass.
  - intros Hne. unfold create_accounts, bind.
    by rewrite (check_content_type_abort _ _ Hne).
Qed.

(** *** Reading the body of a request *)

Lemma get_json_document {S : Type} req (s : S) data :
  json_body req = Document data → get_json req s = (Ok data, s).
Proof. intros Hbody. unfold get_json. by rewrite Hbody. Qed.

(** Without a document, [get_json] aborts the request with 400 or 415 and
    nothing else happens. *)
Lemma get_json_unusable {S : Type} req (s : S) :
  (∀ data, json_body req ≠ Document data) →
  ∃ e, get_json req s = (Raise e, s) ∧ (error_status e = 400 ∨ error_status e = 415).
Proof.
  intros Hbody. unfold get_json.
  destruct (json_body req) as [doc | |].
  - by destruct (Hbody doc).
  - eexists. split; [done |]. by left.
  - eexists. split; [done |]. by right.
Qed.

(** C3: a [POST /accounts] with the JSON content type and a payload that
    has all four required fields answers 201; the body is the serialization
    of the created account, which carries the payload's fields and the id
    the store assigned, and the Location header is the root path. *)
Theorem create_accounts_created req st data (n e a p : json) :
  headers_get "Content-Type" req = Some "application/json" →
  json_body req = Document data →
  json_item data "name" = Some n →
  json_item data "email" = Some e →
  json_item data "address" = Some a →
  json_item data "phone_number" = Some p →
  let created :=
    {| Account.id := Some (Account.next_id st);
       Account.name := n;
       Account.email := e;
       Account.address := a;
       Account.phone_number := p;
       Account.date_joined :=
         match json_item data "date_joined" with
         | Some d => date_fromisoformat d
         | None => date_today
         end |} in
  create_accounts req st =
    (Ok {| body := Account.serialize created;
           status_code := 201;
           response_headers := [("Location", "/")] |},
     {| Account.table :=
          <[Account.next_id st := Account.to_row created]> (Account.table st);
        Account.next_id := Account.next_id st + 1 |}).
Proof.
  intros Hct Hbody Hn He Ha Hp created. unfold create_accounts, bind at 1.
  rewrite (check_content_type_pass _ _ Hct).
  unfold bind at 1. rewrite (get_json_document _ _ _ Hbody).
  run_monad.
  by rewrite (deserialize_all_present _ _ _ _ _ _ Hn He Ha Hp).
Qed.

(** C4: a [POST /accounts] with the JSON content type whose payload lacks a
    required field fails in the deserializer, before a row is created: the
    store is unchanged and the answer is 400. *)
Theorem create_accounts_missing_field req st data (f : string) :
  headers_get "Content-Type" req = Some "application/json" →
  json_body req = Document data →
  f ∈ Account.required_fields →
  json_item data f = None →
  ∃ f', f' ∈ Account.required_fields ∧
        json_item data f' = None ∧
        create_accounts req st = (Raise (DataValidationError f'), st) ∧
        status_of (create_accounts req st).1 = 400.
Proof.
  intros Hct Hbody Hf Hnone.
  destruct (deserialize_missing Account.new _ _ Hf Hnone) as (f' & Hf' & Hnone' & Hde).
  exists f'. split; [done |]. split; [done |].
  assert (create_accounts req st = (Raise (DataValidationError f'), st)) as ->; [| done].
  unfold create_accounts, bind at 1.
  rewrite (check_content_type_pass _ _ Hct).
  unfold bind at 1. rewrite (get_json_document _ _ _ Hbody).
  run_monad. by rewrite Hde.
Qed.

(** *** Listing and reading *)

(** C5: [GET /accounts] answers 200 with an array that holds the
    serialization of every stored account, and of nothing else, when the
    store has accounts; it answers 404 with the error accounts not found
    when the store has none. *)
Theorem read_accounts_lists_store st :
  (Account.table st ≠ ∅ →
     ∃ items,
       read_accounts st =
         (Ok {| body := JArr items; status_code := 200; response_headers := [] |}, st) ∧
       (∀ i r, Account.table st !! i = Some r →
               Account.serialize (Account.of_row i r) ∈ items) ∧
       (∀ x, x ∈ items →
             ∃ i r, Account.table st !! i = Some r ∧
                    x = Account.serialize (Account.of_row i r)) ∧
       length items = size (Account.table st)) ∧
  (Account.table st = ∅ →
     read_accounts st =
       (Ok {| body := JObj [("error", JStr "accounts not found")];
              status_code := 404;
              response_headers := [] |}, st)).
Proof.
  split.
  - intros Hne.
    exists (Account.serialize <$>
              ((fun kr => Account.of_row kr.1 kr.2) <$> map_to_list (Account.table st))).
    split; [| split; [| split]].
    + unfold read_accounts. run_monad.
      destruct (map_to_list (Account.table st)) as [|kr rest] eqn:Hl; [| done].
      by apply map_to_list_empty_iff in Hl.
    + intros i r Hir.
      apply list_elem_of_fmap_2, list_elem_of_fmap.
      exists (i, r). split; [done |]. by apply elem_of_map_to_list.
    + intros x Hx.
      apply list_elem_of_fmap in Hx as (ac & -> & Hac).
      apply list_elem_of_fmap in Hac as ([i r] & -> & Hir).
      exists i, r. split; [| done]. by apply elem_of_map_to_list.
    + by rewrite !length_fmap, length_map_to_list.
  - intros Hempty. unfold read_accounts. run_monad.
    by rewrite Hempty, map_to_list_empty.
Qed.

(** C9: the read-only handlers, [GET /health], [GET /], [GET /accounts] and
    [GET /accounts/<id>], leave the store exactly as they found it. *)
Theorem read_only_handlers_keep_store st i :
  (health st).2 = st ∧
  (index st).2 = st ∧
  (read_accounts st).2 = st ∧
  (read_account i st).2 = st.
Proof.
  repeat split; try done.
  - unfold read_accounts. run_monad.
    by destruct (map_to_list (Account.table st)).
  - unfold read_account. run_monad.
    by destruct (Account.table st !! i).
Qed.

(** *** Updating *)

(** C8, amended: a [PUT /accounts/<id>] whose parsed JSON document is empty
    (falsy: the empty object or array, the empty text, zero, false or null)
    answers 405 for every id and every store; the answer is fixed before the
    lookup of the id, so it does not depend on the store, and the store is
    not touched. *)
Theorem update_account_requires_body i req st data :
  json_body req = Document data →
  truthy data = false →
  update_account i req st =
    (Ok {| body := JObj [("error", JStr "id not found")];
           status_code := 405;
           response_headers := [] |}, st).
Proof.
  intros Hbody Hfalsy. unfold update_account, bind at 1.
  rewrite (get_json_document _ _ _ Hbody). by rewrite Hfalsy.
Qed.


(** When the deserializer fails on the found record, the handler of
    [PUT /accounts/<id>] enters its [except] branch, where [jsonify] is given
    the exception object itself. *)
Lemma update_account_except_branch i req st data (r : Account.row) (e : exn) :
  json_body req = Document data →
  truthy data = true →
  Account.table st !! i = Some r →
  Account.deserialize (Account.of_row i r) data = Raise e →
  update_account i req st =
    (let* b := jsonify (PDict [("error", PJson (JStr "attribute error"));
                               ("details", PExc e)]) in
     ret (make_response b status.HTTP_409_CONFLICT [])) st.
Proof.
  intros Hbody Htruthy Hrow Hde. unfold update_account, bind at 1.
  rewrite (get_json_document _ _ _ Hbody). rewrite Htruthy.
  cbn [negb]. unfold bind at 1, Account.find. rewrite Hrow. cbn [fmap option_fmap option_map].
  unfold try_except, bind at 1, bind at 1.
  rewrite (get_json_document _ _ _ Hbody). unfold lift. by rewrite Hde.
Qed.

(** C1, as the code has it: for a stored account and a non-empty payload
    that lacks a required field, the deserializer fails, [update()] is not
    reached and the store is unchanged; but the handler does not answer
    409: encoding the details entry, an exception object, raises
    [TypeError], and the request ends as a server fault. *)
Theorem update_account_missing_field_raises i req st data (r : Account.row) (f : string) :
  Account.table st !! i = Some r →
  json_body req = Document data →
  truthy data = true →
  f ∈ Account.required_fields →
  json_item data f = None →
  (∃ f', Account.deserialize (Account.of_row i r) data =
           Raise (DataValidationError f')) ∧
  update_account i req st =
    (Raise (TypeError "Object of type DataValidationError is not JSON serializable"), st) ∧
  status_of (update_account i req st).1 = 500.
Proof.
  intros Hrow Hbody Htruthy Hf Hnone.
  destruct (deserialize_missing (Account.of_row i r) _ _ Hf Hnone)
    as (f' & _ & _ & Hde).
  assert (update_account i req st =
            (Raise (TypeError "Object of type DataValidationError is not JSON serializable"),
             st)) as Hrun.
  { by rewrite (update_account_except_branch _ _ _ _ _ _ Hbody Htruthy Hrow Hde). }
  split; [by exists f' |]. split; [done |]. by rewrite Hrun.
Qed.

(** C6: a [PUT /accounts/<id>] for a stored account, with a payload that
    has all four required fields, answers 200 with the serialization of the
    updated record; the payload's values replace the stored ones, the id
    stays, and a later [find] of the id returns the updated record. *)
Theorem update_account_full_payload i req st data (r : Account.row) (n e a p : json) :
  Account.table st !! i = Some r →
  json_body req = Document data →
  json_item data "name" = Some n →
  json_item data "email" = Some e →
  json_item data "address" = Some a →
  json_item data "phone_number" = Some p →
  let updated :=
    {| Account.id := Some i;
       Account.name := n;
       Account.email := e;
       Account.address := a;
       Account.phone_number := p;
       Account.date_joined :=
         match json_item data "date_joined" with
         | Some d => date_fromisoformat d
         | None => Account.row_date_joined r
         end |} in
  let st' :=
    {| Account.table := <[i := Account.to_row updated]> (Account.table st);
       Account.next_id := Account.next_id st |} in
  update_account i req st =
    (Ok {| body := Account.serialize updated;
           status_code := 200;
           response_headers := [] |}, st') ∧
  Account.find i st' = (Ok (Some updated), st').
Proof.
  intros Hrow Hbody Hn He Ha Hp updated st'. split.
  - unfold update_account, bind at 1.
    rewrite (get_json_document _ _ _ Hbody).
    rewrite (json_item_truthy _ _ _ Hn). cbn [negb].
    unfold bind at 1, Account.find. rewrite Hrow. cbn [fmap option_fmap option_map].
    unfold try_except, bind at 1, bind at 1.
    rewrite (get_json_document _ _ _ Hbody). unfold lift.
    rewrite (deserialize_all_present _ _ _ _ _ _ Hn He Ha Hp).
    run_monad. by rewrite Hrow.
  - unfold Account.find, st'. simpl. by rewrite lookup_insert_eq.
Qed.

(** *** Deleting *)

(** C7: [DELETE /accounts/<id>] for a stored id answers 204 with the empty
    mapping as its body and removes the row, so that a later [find] of the
    id returns nothing; for an id that is not stored it answers 404 with the
    error id not found and leaves the store unchanged. *)
Theorem delete_account_outcomes i st :
  (∀ r, Account.table st !! i = Some r →
     let st' :=
       {| Account.table := delete i (Account.table st);
          Account.next_id := Account.next_id st |} in
     delete_account i st =
       (Ok {| body := JObj []; status_code := 204; response_headers := [] |}, st') ∧
     Account.find i st' = (Ok None, st')) ∧
  (Account.table st !! i = None →
     delete_account i st =
       (Ok {| body := JObj [("error", JStr "id not found")];
              status_code := 404;
              response_headers := [] |}, st)).
Proof.
  split.
  - intros r Hrow st'. split.
    + unfold delete_account. run_monad. by rewrite Hrow.
    + unfold Account.find, st'. simpl. by rewrite lookup_delete_eq.
  - intros Hnone. unfold delete_account. run_monad. by rewrite Hnone.
Qed.

(** *** The invariant along the handlers that write *)

Lemma create_accounts_well_formed req st :
  Account.well_formed st → Account.well_formed (create_accounts req st).2.
Proof.
  intros Hwf.
  destruct (decide (headers_get "Content-Type" req = Some "application/json"))
    as [Hct | Hct].
  - unfold create_accounts, bind at 1.
    rewrite (check_content_type_pass _ _ Hct).
    unfold bind at 1, get_json.
    destruct (json_body req) as [data | |]; [| done | done].
    unfold ret at 1, bind at 1, lift.
    destruct (Account.deserialize Account.new data) as [ac | e]; [| done].
    unfold bind at 1.
    pose proof (create_well_formed ac st Hwf) as Hcreated.
    destruct (Account.create ac st) as [[ac' | e] st'] eqn:Hc; done.
  - unfold create_accounts, bind at 1.
    by rewrite (check_content_type_abort _ _ Hct).
Qed.

Lemma update_account_well_formed i req st :
  Account.well_formed st → Account.well_formed (update_account i req st).2.
Proof.
  intros Hwf. unfold update_account, bind at 1, get_json.
  destruct (json_body req) as [data | |] eqn:Hbody; [| done | done].
  unfold ret at 1.
  destruct (truthy data); [| done]. cbn [negb].
  unfold bind at 1, Account.find.
  destruct (Account.table st !! i) as [r |] eqn:Hrow; [| done].
  cbn [fmap option_fmap option_map].
  unfold bind at 1, try_except, bind at 1, bind at 1.
  unfold ret at 1, lift.
  destruct (Account.deserialize (Account.of_row i r) data) as [ac | e];
    [| done].
  unfold ret at 1, bind at 1.
  pose proof (update_well_formed ac st Hwf) as Hupdated.
  destruct (Account.update ac st) as [[[] | e] st'] eqn:Hu; done.
Qed.

Lemma delete_account_well_formed i st :
  Account.well_formed st → Account.well_formed (delete_account i st).2.
Proof.
  intros Hwf. unfold delete_account, bind at 1, Account.find.
  destruct (Account.table st !! i) as [r |] eqn:Hrow; [| done].
  cbn [fmap option_fmap option_map]. unfold bind at 1.
  pose proof (delete_well_formed (Account.of_row i r) st Hwf) as Hdeleted.
  destruct (Account.delete (Account.of_row i r) st) as [[[] | e] st'] eqn:Hd; done.
Qed.

(** * Further properties of the handlers *)

(** *** How each handler runs, case by case *)

Lemma deserialize_raises (self : Account.t) data (e : exn) :
  Account.deserialize self data = Raise e →
  ∃ f, e = DataValidationError f ∧ f ∈ Account.required_fields ∧
       json_item data f = None.
Proof.
  unfold Account.deserialize. intros H.
  destruct (json_item data "name") eqn:Hn;
    [| inversion H; exists "name"; repeat split; [in_required | done]].
  destruct (json_item data "email") eqn:He;
    [| inversion H; exists "email"; repeat split; [in_required | done]].
  destruct (json_item data "address") eqn:Ha;
    [| inversion H; exists "address"; repeat split; [in_required | done]].
  destruct (json_item data "phone_number") eqn:Hp;
    [| inversion H; exists "phone_number"; repeat split; [in_required | done]].
  discriminate.
Qed.

(** What [deserialize] returns depends on the record it is applied to only
    through the id and the joining date. *)
Lemma deserialize_again (self ac : Account.t) data i :
  Account.id self = Some i →
  Account.deserialize self data = Ok ac →
  Account.deserialize (Account.of_row i (Account.to_row ac)) data = Ok ac.
Proof.
  unfold Account.deserialize. intros Hid H.
  destruct (json_item data "name"); [| discriminate].
  destruct (json_item data "email"); [| discriminate].
  destruct (json_item data "address"); [| discriminate].
  destruct (json_item data "phone_number"); [| discriminate].
  inversion H as [Hac]. simpl. rewrite Hid.
  by destruct (json_item data "date_joined").
Qed.

Lemma create_accounts_success req st data (ac : Account.t) :
  headers_get "Content-Type" req = Some "application/json" →
  json_body req = Document data →
  Account.deserialize Account.new data = Ok ac →
  create_accounts req st =
    (Ok {| body := Account.serialize (set_id (Some (Account.next_id st)) ac);
           status_code := 201;
           response_headers := [("Location", "/")] |},
     {| Account.table := <[Account.next_id st := Account.to_row ac]> (Account.table st);
        Account.next_id := Account.next_id st + 1 |}).
Proof.
  intros Hct Hbody Hde. unfold create_accounts, bind at 1.
  rewrite (check_content_type_pass _ _ Hct).
  unfold bind at 1. rewrite (get_json_document _ _ _ Hbody).
  unfold bind at 1, lift. by rewrite Hde.
Qed.

Lemma create_accounts_invalid req st data (e : exn) :
  headers_get "Content-Type" req = Some "application/json" →
  json_body req = Document data →
  Account.deserialize Account.new data = Raise e →
  create_accounts req st = (Raise e, st).
Proof.
  intros Hct Hbody Hde. unfold create_accounts, bind at 1.
  rewrite (check_content_type_pass _ _ Hct).
  unfold bind at 1. rewrite (get_json_document _ _ _ Hbody).
  unfold bind at 1, lift. by rewrite Hde.
Qed.

Lemma create_accounts_unusable req st :
  headers_get "Content-Type" req = Some "application/json" →
  (∀ data, json_body req ≠ Document data) →
  ∃ e, create_accounts req st = (Raise e, st) ∧
       (error_status e = 400 ∨ error_status e = 415).
Proof.
  intros Hct Hbody.
  destruct (get_json_unusable req st Hbody) as (e & Hget & Hcode).
  exists e. split; [| done].
  unfold create_accounts, bind at 1.
  rewrite (check_content_type_pass _ _ Hct).
  unfold bind at 1. by rewrite Hget.
Qed.

Lemma create_accounts_unsupported req st :
  headers_get "Content-Type" req ≠ Some "application/json" →
  create_accounts req st =
    (Raise (HTTPException 415 "Content-Type must be application/json"), st).
Proof.
  intros Hct. unfold create_accounts, bind at 1.
  by rewrite (check_content_type_abort _ _ Hct).
Qed.

Lemma read_account_found i st (r : Account.row) :
  Account.table st !! i = Some r →
  read_account i st =
    (Ok {| body := Account.serialize (Account.of_row i r);
           status_code := 200;
           response_headers := [] |}, st).
Proof. intros Hrow. unfold read_account. run_monad. by rewrite Hrow. Qed.

Lemma read_account_missing i st :
  Account.table st !! i = None →
  read_account i st =
    (Ok {| body := JObj [("error", JStr "account not found")];
           status_code := 404;
           response_headers := [] |}, st).
Proof. intros Hrow. unfold read_account. run_monad. by rewrite Hrow. Qed.

Lemma update_account_unusable i req st :
  (∀ data, json_body req ≠ Document data) →
  ∃ e, update_account i req st = (Raise e, st) ∧
       (error_status e = 400 ∨ error_status e = 415).
Proof.
  intros Hbody.
  destruct (get_json_unusable req st Hbody) as (e & Hget & Hcode).
  exists e. split; [| done].
  unfold update_account, bind at 1. by rewrite Hget.
Qed.

Lemma update_account_no_body i req st data :
  json_body req = Document data →
  truthy data = false →
  update_account i req st = (Ok (make_response id_not_found 405 []), st).
Proof.
  intros Hbody Hfalsy. unfold update_account, bind at 1.
  rewrite (get_json_document _ _ _ Hbody). by rewrite Hfalsy.
Qed.

Lemma update_account_missing i req st data :
  json_body req = Document data →
  truthy data = true →
  Account.table st !! i = None →
  update_account i req st = (Ok (make_response id_not_found 404 []), st).
Proof.
  intros Hbody Htruthy Hrow. unfold update_account, bind at 1.
  rewrite (get_json_document _ _ _ Hbody). rewrite Htruthy.
  run_monad. by rewrite Hrow.
Qed.

Lemma update_account_success i req st data (r : Account.row) (ac : Account.t) :
  json_body req = Document data →
  truthy data = true →
  Account.table st !! i = Some r →
  Account.deserialize (Account.of_row i r) data = Ok ac →
  update_account i req st =
    (Ok {| body := Account.serialize ac; status_code := 200; response_headers := [] |},
     {| Account.table := <[i := Account.to_row ac]> (Account.table st);
        Account.next_id := Account.next_id st |}).
Proof.
  intros Hbody Htruthy Hrow Hde. unfold update_account, bind at 1.
  rewrite (get_json_document _ _ _ Hbody). rewrite Htruthy. cbn [negb].
  unfold bind at 1, Account.find. rewrite Hrow. cbn [fmap option_fmap option_map].
  unfold bind at 1, try_except, bind at 1, bind at 1.
  rewrite (get_json_document _ _ _ Hbody). unfold lift. rewrite Hde.
  pose proof (deserialize_keeps_id _ _ _ Hde) as Hid. simpl in Hid.
  run_monad. by rewrite Hid, Hrow.
Qed.

Lemma update_account_invalid i req st data (r : Account.row) (e : exn) :
  json_body req = Document data →
  truthy data = true →
  Account.table st !! i = Some r →
  Account.deserialize (Account.of_row i r) data = Raise e →
  update_account i req st =
    (Raise (TypeError ("Object of type " ++ exn_type_name e ++
                       " is not JSON serializable")), st).
Proof.
  intros Hbody Htruthy Hrow Hde.
  by rewrite (update_account_except_branch _ _ _ _ _ _ Hbody Htruthy Hrow Hde).
Qed.

(** The two ways a [POST /accounts] can end: with an exception and the
    store as it was, or with the created account. *)
Lemma create_accounts_cases req st :
  (∃ e, create_accounts req st = (Raise e, st) ∧
        (error_status e = 400 ∨ error_status e = 415)) ∨
  (∃ data ac,
     headers_get "Content-Type" req = Some "application/json" ∧
     json_body req = Document data ∧
     Account.deserialize Account.new data = Ok ac ∧
     create_accounts req st =
       (Ok {| body := Account.serialize (set_id (Some (Account.next_id st)) ac);
              status_code := 201;
              response_headers := [("Location", "/")] |},
        {| Account.table :=
             <[Account.next_id st := Account.to_row ac]> (Account.table st);
           Account.next_id := Account.next_id st + 1 |})).
Proof.
  destruct (decide (headers_get "Content-Type" req = Some "application/json"))
    as [Hct | Hct].
  - destruct (json_body req) as [data | |] eqn:Hbody.
    + destruct (Account.deserialize Account.new data) as [ac | e] eqn:Hde.
      * right. exists data, ac. repeat split; try done.
        by apply (create_accounts_success _ _ data).
      * left. exists e. split; [by apply (create_accounts_invalid _ _ data) |].
        apply deserialize_raises in Hde as (f & -> & _). by left.
    + left. apply create_accounts_unusable; [done |]. intros data. by rewrite Hbody.
    + left. apply create_accounts_unusable; [done |]. intros data. by rewrite Hbody.
  - left. eexists. split; [by apply create_accounts_unsupported |]. by right.
Qed.

(** The two ways a [PUT /accounts/<id>] can end: with a failure, which is
    never a 409, and the store as it was, or with the updated record. *)
Lemma update_account_cases i req st :
  (∃ out, update_account i req st = (out, st) ∧
          (400 ≤ status_of out)%Z ∧ status_of out ≠ 409) ∨
  (∃ data r ac,
     json_body req = Document data ∧
     truthy data = true ∧
     Account.table st !! i = Some r ∧
     Account.deserialize (Account.of_row i r) data = Ok ac ∧
     update_account i req st =
       (Ok {| body := Account.serialize ac; status_code := 200;
              response_headers := [] |},
        {| Account.table := <[i := Account.to_row ac]> (Account.table st);
           Account.next_id := Account.next_id st |})).
Proof.
  destruct (json_body req) as [data | |] eqn:Hbody.
  - destruct (truthy data) eqn:Htruthy.
    + destruct (Account.table st !! i) as [r |] eqn:Hrow.
      * destruct (Account.deserialize (Account.of_row i r) data) as [ac | e] eqn:Hde.
        -- right. exists data, r, ac. repeat split; try done.
           by apply (update_account_success _ _ _ data r).
        -- left. eexists. split; [by apply (update_account_invalid _ _ _ data r) |].
           simpl. unfold status.HTTP_500_INTERNAL_SERVER_ERROR. split; [lia | done].
      * left. eexists. split; [by apply (update_account_missing _ _ _ data) |].
        simpl. split; [lia | done].
    + left. eexists. split; [by apply (update_account_no_body _ _ _ data) |].
      simpl. split; [lia | done].
  - left.
    destruct (update_account_unusable i req st) as (e & Hrun & Hcode).
    { intros data. by rewrite Hbody. }
    exists (Raise e). split; [done |]. simpl. destruct Hcode as [-> | ->]; by split.
  - left.
    destruct (update_account_unusable i req st) as (e & Hrun & Hcode).
    { intros data. by rewrite Hbody. }
    exists (Raise e). split; [done |]. simpl. destruct Hcode as [-> | ->]; by split.
Qed.

Lemma delete_account_found i st (r : Account.row) :
  Account.table st !! i = Some r →
  delete_account i st =
    (Ok {| body := JObj []; status_code := 204; response_headers := [] |},
     {| Account.table := delete i (Account.table st);
        Account.next_id := Account.next_id st |}).
Proof. intros Hrow. unfold delete_account. run_monad. by rewrite Hrow. Qed.

Lemma delete_account_missing i st :
  Account.table st !! i = None →
  delete_account i st = (Ok (make_response id_not_found 404 []), st).
Proof. intros Hrow. unfold delete_account. run_monad. by rewrite Hrow. Qed.

(** *** Reading one account *)

(** X1: [GET /accounts/<id>] answers 200 with the serialization of the
    stored record when the id is stored, and 404 with the error account not
    found when it is not; either way the store is as before. *)
Theorem read_account_outcomes i st :
  (∀ r, Account.table st !! i = Some r →
     read_account i st =
       (Ok {| body := Account.serialize (Account.of_row i r);
              status_code := 200;
              response_headers := [] |}, st)) ∧
  (Account.table st !! i = None →
     read_account i st =
       (Ok {| body := JObj [("error", JStr "account not found")];
              status_code := 404;
              response_headers := [] |}, st)).
Proof.
  split.
  - intros r Hrow. unfold read_account, bind at 1, Account.find.
    rewrite Hrow. by cbn.
  - intros Hrow. unfold read_account, bind at 1, Account.find.
    rewrite Hrow. by cbn.
Qed.

(** *** The guard for an arbitrary media type *)

(** X2: for any expected media type, [check_content_type] passes exactly
    when the header is present, equal to the expected type and not empty;
    otherwise it aborts with 415 and a description that names the expected
    type.  With the empty text as expected type it never passes, not even
    for an empty header. *)
Theorem check_content_type_any_media (media : string) req st :
  (check_content_type media req st = (Ok tt, st) ↔
     headers_get "Content-Type" req = Some media ∧ media ≠ "") ∧
  (¬ (headers_get "Content-Type" req = Some media ∧ media ≠ "") →
     check_content_type media req st =
       (Raise (HTTPException 415 ("Content-Type must be " ++ media)), st)).
Proof.
  unfold check_content_type.
  destruct (headers_get "Content-Type" req) as [ct |] eqn:Hct.
  - destruct (String.eqb_spec ct "") as [Hempty | Hempty];
      destruct (String.eqb_spec ct media) as [Heq | Heq]; simpl.
    + subst. split; [split |]; [discriminate | | done].
      intros [_ Hne]. by destruct Hne.
    + split; [split |]; [discriminate | | done].
      intros [Hsome _]. congruence.
    + subst. split; [split |]; [done | done |].
      intros Hnot. destruct Hnot. done.
    + split; [split |]; [discriminate | | done].
      intros [Hsome _]. congruence.
  - split; [split |]; [discriminate | | done].
    intros [Hsome _]. discriminate.
Qed.

(** *** Failed requests *)

(** X3: a request to one of the writing handlers that ends with a status
    of 400 or above, be it an answer or an exception, leaves the store
    exactly as it was. *)
Theorem failed_requests_keep_store i req st :
  ((400 ≤ status_of (create_accounts req st).1)%Z → (create_accounts req st).2 = st) ∧
  ((400 ≤ status_of (update_account i req st).1)%Z → (update_account i req st).2 = st) ∧
  ((400 ≤ status_of (delete_account i st).1)%Z → (delete_account i st).2 = st).
Proof.
  split; [| split].
  - destruct (create_accounts_cases req st)
      as [(e & -> & _) | (data & ac & _ & _ & _ & ->)]; [done |].
    simpl. lia.
  - destruct (update_account_cases i req st)
      as [(out & -> & _) | (data & r & ac & _ & _ & _ & _ & ->)]; [done |].
    simpl. lia.
  - destruct (Account.table st !! i) as [r |] eqn:Hrow.
    + rewrite (delete_account_found _ _ _ Hrow). simpl. lia.
    + by rewrite (delete_account_missing _ _ Hrow).
Qed.


(** *** Requests in sequence *)

(** X5: [PUT /accounts/<id>] is idempotent.  Whatever the request and the
    store, sending the same request a second time gives the answer of the
    first time and leaves the store as the first request left it. *)
Theorem update_account_idempotent i req st :
  update_account i req (update_account i req st).2 = update_account i req st.
Proof.
  destruct (update_account_cases i req st)
    as [(out & Hrun & _) | (data & r & ac & Hbody & Htruthy & Hrow & Hde & Hrun)].
  - by rewrite Hrun at 1.
  - rewrite Hrun. simpl.
    rewrite (update_account_success i req _ data (Account.to_row ac) ac Hbody Htruthy).
    + simpl. by rewrite insert_insert_eq.
    + simpl. by rewrite lookup_insert_eq.
    + by apply (deserialize_again (Account.of_row i r)).
Qed.

(** X6: after a [DELETE /accounts/<id>], whatever it answered, the id is
    gone: a second delete answers 404 with the error id not found, a read of
    the id answers 404 with the error account not found, and neither changes
    the store. *)
Theorem delete_account_then_gone i st :
  let st' := (delete_account i st).2 in
  delete_account i st' =
    (Ok {| body := JObj [("error", JStr "id not found")];
           status_code := 404;
           response_headers := [] |}, st') ∧
  read_account i st' =
    (Ok {| body := JObj [("error", JStr "account not found")];
           status_code := 404;
           response_headers := [] |}, st').
Proof.
  intros st'.
  assert (Account.table st' !! i = None) as Hgone.
  { unfold st'. destruct (Account.table st !! i) as [r |] eqn:Hrow.
    - rewrite (delete_account_found _ _ _ Hrow). simpl. apply lookup_delete_eq.
    - by rewrite (delete_account_missing _ _ Hrow). }
  split.
  - by rewrite (delete_account_missing _ _ Hgone).
  - by rewrite (read_account_missing _ _ Hgone).
Qed.

(** X7: an account that [POST /accounts] created can be read back.  When
    the handler answers, its body carries a numeric id, and
    [GET /accounts/<id>] for that id on the resulting store answers 200 with
    the very same body. *)
Theorem create_then_read req st (resp : response) st' :
  create_accounts req st = (Ok resp, st') →
  ∃ i, json_item (body resp) "id" = Some (JNum i) ∧
       read_account i st' =
         (Ok {| body := body resp; status_code := 200; response_headers := [] |}, st').
Proof.
  intros Hrun.
  destruct (create_accounts_cases req st)
    as [(e & Hfail & _) | (data & ac & _ & _ & _ & Hok)].
  - rewrite Hfail in Hrun. discriminate.
  - rewrite Hok in Hrun. inversion Hrun as [[Hresp Hst]]. clear Hrun.
    exists (Account.next_id st). split; [done |].
    rewrite (read_account_found _ _ (Account.to_row ac)).
    + by destruct ac.
    + simpl. apply lookup_insert_eq.
Qed.

(** X8: an update can be read back.  When [PUT /accounts/<id>] answers
    200, [GET /accounts/<id>] on the resulting store answers 200 with the
    body of that answer. *)
Theorem update_then_read i req st (resp : response) st' :
  update_account i req st = (Ok resp, st') →
  status_code resp = 200 →
  read_account i st' =
    (Ok {| body := body resp; status_code := 200; response_headers := [] |}, st').
Proof.
  intros Hrun Hcode.
  destruct (update_account_cases i req st)
    as [(out & Hfail & Hge & _) | (data & r & ac & _ & _ & _ & Hde & Hok)].
  - rewrite Hfail in Hrun. inversion Hrun; subst. simpl in Hge. lia.
  - rewrite Hok in Hrun. inversion Hrun as [[Hresp Hst]]. clear Hrun.
    rewrite (read_account_found _ _ (Account.to_row ac)).
    + pose proof (deserialize_keeps_id _ _ _ Hde) as Hid. simpl in Hid.
      destruct ac. simpl in *. by subst.
    + simpl. apply lookup_insert_eq.
Qed.

(** *** What the writing handlers leave alone *)

(** X9: an update or a delete of one id never touches the row of another
    id, and neither moves the id sequence; on a well-formed store a create
    leaves every row that was there as it was. *)
Theorem writers_touch_one_row i j req st :
  (i ≠ j →
     Account.table (update_account i req st).2 !! j = Account.table st !! j ∧
     Account.table (delete_account i st).2 !! j = Account.table st !! j) ∧
  Account.next_id (update_account i req st).2 = Account.next_id st ∧
  Account.next_id (delete_account i st).2 = Account.next_id st ∧
  (Account.well_formed st →
     ∀ r, Account.table st !! j = Some r →
          Account.table (create_accounts req st).2 !! j = Some r).
Proof.
  assert ((i ≠ j → Account.table (update_account i req st).2 !! j
                   = Account.table st !! j) ∧
          Account.next_id (update_account i req st).2 = Account.next_id st)
    as Hupdate.
  { destruct (update_account_cases i req st)
      as [(out & -> & _) | (data & r & ac & _ & _ & _ & _ & ->)]; [done |].
    simpl. split; [| done]. intros Hij. by rewrite lookup_insert_ne. }
  assert ((i ≠ j → Account.table (delete_account i st).2 !! j
                   = Account.table st !! j) ∧
          Account.next_id (delete_account i st).2 = Account.next_id st)
    as Hdelete.
  { destruct (Account.table st !! i) as [r |] eqn:Hrow.
    - rewrite (delete_account_found _ _ _ Hrow). simpl.
      split; [| done]. intros Hij. by rewrite lookup_delete_ne.
    - by rewrite (delete_account_missing _ _ Hrow). }
  split; [| split; [| split]].
  - intros Hij. split; [by apply Hupdate | by apply Hdelete].
  - apply Hupdate.
  - apply Hdelete.
  - intros Hwf r Hrow.
    destruct (create_accounts_cases req st)
      as [(e & -> & _) | (data & ac & _ & _ & _ & ->)]; [done |].
    simpl. rewrite lookup_insert_ne; [done |].
    intros <-. specialize (Hwf (Account.next_id st)).
    rewrite Hrow in Hwf. specialize (Hwf (mk_is_Some _ _ eq_refl)). lia.
Qed.

(** X10: the ids in the store.  An update never adds or removes an id; a
    delete removes the id it was given and no other; a create that answers
    adds the next id of the sequence and no other. *)
Theorem writers_stored_ids i req st :
  dom (Account.table (update_account i req st).2) = dom (Account.table st) ∧
  dom (Account.table (delete_account i st).2) = dom (Account.table st) ∖ {[ i ]} ∧
  (∀ resp st', create_accounts req st = (Ok resp, st') →
     dom (Account.table st') = {[ Account.next_id st ]} ∪ dom (Account.table st)).
Proof.
  split; [| split].
  - destruct (update_account_cases i req st)
      as [(out & -> & _) | (data & r & ac & _ & _ & Hrow & _ & ->)]; [done |].
    simpl. rewrite dom_insert_L.
    assert (i ∈ dom (Account.table st)) as Hin
      by (apply elem_of_dom; by rewrite Hrow).
    apply set_eq. intros k. rewrite elem_of_union, elem_of_singleton.
    split; [by intros [-> | ?] | by right].
  - destruct (Account.table st !! i) as [r |] eqn:Hrow.
    + rewrite (delete_account_found _ _ _ Hrow). simpl. apply dom_delete_L.
    + rewrite (delete_account_missing _ _ Hrow). simpl.
      assert (i ∉ dom (Account.table st)) as Hout by (by apply not_elem_of_dom).
      apply set_eq. intros k. rewrite elem_of_difference, elem_of_singleton.
      split; [| by intros [? _]].
      intros Hk. split; [done |]. by intros ->.
  - intros resp st' Hrun.
    destruct (create_accounts_cases req st)
      as [(e & Hfail & _) | (data & ac & _ & _ & _ & Hok)].
    + rewrite Hfail in Hrun. discriminate.
    + rewrite Hok in Hrun. inversion Hrun; subst. simpl. apply dom_insert_L.
Qed.

(** X11: every handler keeps the store well formed: no request, valid or
    not, ever leaves a stored id at or above the next id of the sequence. *)
Theorem handlers_keep_well_formed i req st :
  Account.well_formed st →
  Account.well_formed (create_accounts req st).2 ∧
  Account.well_formed (update_account i req st).2 ∧
  Account.well_formed (delete_account i st).2 ∧
  Account.well_formed (read_accounts st).2 ∧
  Account.well_formed (read_account i st).2.
Proof.
  intros Hwf. repeat split.
  - by apply create_accounts_well_formed.
  - by apply update_account_well_formed.
  - by apply delete_account_well_formed.
  - unfold read_accounts. run_monad.
    by destruct (map_to_list (Account.table st)).
  - unfold read_account. run_monad.
    by destruct (Account.table st !! i).
Qed.

(** *** Posting serialized accounts, as the test suite does *)

Lemma deserialize_serialize (self a : Account.t) :
  date_round_trip →
  Account.deserialize self (Account.serialize a) = Ok (set_id (Account.id self) a).
Proof.
  intros Hdate. unfold Account.deserialize, Account.serialize, set_id. simpl.
  by rewrite Hdate.
Qed.

Lemma serialize_stored_row i (a : Account.t) :
  Account.serialize (Account.of_row i (Account.to_row a))
  = Account.serialize (set_id (Some i) a).
Proof. by destruct a. Qed.

Lemma post_serialized_run (a : Account.t) st :
  date_round_trip →
  create_accounts (client_json (Account.serialize a)) st =
    (Ok {| body := Account.serialize (set_id (Some (Account.next_id st)) a);
           status_code := 201;
           response_headers := [("Location", "/")] |},
     {| Account.table := <[Account.next_id st := Account.to_row a]> (Account.table st);
        Account.next_id := Account.next_id st + 1 |}).
Proof.
  intros Hdate.
  rewrite (create_accounts_success _ st (Account.serialize a) (set_id None a));
    [done | done | done |].
  apply (deserialize_serialize Account.new a Hdate).
Qed.

(** X12: posting the serialization of an account, as the test client does,
    answers 201 with that account under the id the store assigned: the four
    required fields and the joining date come back as they were sent, and an
    id entry in the payload is ignored.  The date library must read back the
    ISO text it writes. *)
Theorem post_serialized_account (a : Account.t) st :
  date_round_trip →
  create_accounts (client_json (Account.serialize a)) st =
    (Ok {| body := Account.serialize (set_id (Some (Account.next_id st)) a);
           status_code := 201;
           response_headers := [("Location", "/")] |},
     {| Account.table := <[Account.next_id st := Account.to_row a]> (Account.table st);
        Account.next_id := Account.next_id st + 1 |}) ∧
  json_item (Account.serialize (set_id (Some (Account.next_id st)) a)) "name"
    = Some (Account.name a) ∧
  json_item (Account.serialize (set_id (Some (Account.next_id st)) a)) "email"
    = Some (Account.email a) ∧
  json_item (Account.serialize (set_id (Some (Account.next_id st)) a)) "address"
    = Some (Account.address a) ∧
  json_item (Account.serialize (set_id (Some (Account.next_id st)) a)) "phone_number"
    = Some (Account.phone_number a) ∧
  json_item (Account.serialize (set_id (Some (Account.next_id st)) a)) "date_joined"
    = Some (JStr (date_isoformat (Account.date_joined a))).
Proof.
  intros Hdate. split; [by apply post_serialized_run |]. by repeat split.
Qed.

Lemma read_accounts_nonempty st :
  Account.table st ≠ ∅ →
  read_accounts st =
    (Ok {| body :=
             JArr (Account.serialize <$>
                     ((fun kr => Account.of_row kr.1 kr.2) <$>
                        map_to_list (Account.table st)));
           status_code := 200;
           response_headers := [] |}, st).
Proof.
  intros Hne. unfold read_accounts. run_monad.
  destruct (map_to_list (Account.table st)) as [| kr rest] eqn:Hl; [| done].
  by apply map_to_list_empty_iff in Hl.
Qed.

Lemma create_accounts_bulk_run (factory : list Account.t) :
  date_round_trip →
  ∀ st, Account.well_formed st →
  ∃ st',
    _create_accounts factory st =
      (Some (imap (fun k => set_id (Some (Account.next_id st + Z.of_nat k))) factory),
       st') ∧
    Account.well_formed st' ∧
    Account.next_id st' = Account.next_id st + Z.of_nat (length factory) ∧
    (∀ (k : nat) a, factory !! k = Some a →
       Account.table st' !! (Account.next_id st + Z.of_nat k) = Some (Account.to_row a)) ∧
    (∀ j r, Account.table st !! j = Some r → Account.table st' !! j = Some r) ∧
    size (Account.table st') = (size (Account.table st) + length factory)%nat.
Proof.
  intros Hdate. induction factory as [| a rest IH]; intros st Hwf.
  - exists st. simpl.
    split; [done |]. split; [done |]. split; [lia |]. split; [done |].
    split; [done | lia].
  - set (st1 := {| Account.table :=
                     <[Account.next_id st := Account.to_row a]> (Account.table st);
                   Account.next_id := Account.next_id st + 1 |}).
    assert (Account.table st !! Account.next_id st = None) as Hfresh.
    { destruct (Account.table st !! Account.next_id st) eqn:Hl; [| done].
      specialize (Hwf (Account.next_id st)). rewrite Hl in Hwf.
      specialize (Hwf (mk_is_Some _ _ eq_refl)). lia. }
    assert (Account.well_formed st1) as Hwf1.
    { intros j. unfold st1. simpl. rewrite lookup_insert. case_decide as Hj.
      - subst j. lia.
      - intros Hsome. specialize (Hwf j Hsome). lia. }
    destruct (IH st1 Hwf1) as (st' & Hrun & Hwf' & Hnext & Hrows & Hkeep & Hsize).
    exists st'. split; [| split; [| split; [| split; [| split]]]].
    + cbn [_create_accounts]. rewrite (post_serialized_run a st Hdate).
      fold st1. cbn [body status_code].
      change (201 =? status.HTTP_201_CREATED)%Z with true. cbn iota.
      cbn [Account.serialize json_item dict_get set_id Account.id String.eqb
             Ascii.eqb Bool.eqb id_of_json].
      rewrite Hrun. simpl. rewrite Z.add_0_r. do 3 f_equal.
      apply imap_ext. intros k x _. simpl. do 2 f_equal. lia.
    + done.
    + rewrite Hnext. unfold st1. simpl. lia.
    + intros [| k] x Hx; simpl in Hx.
      * inversion Hx; subst x. rewrite Z.add_0_r. apply Hkeep.
        unfold st1. simpl. apply lookup_insert_eq.
      * specialize (Hrows k x Hx). unfold st1 in Hrows. simpl in Hrows.
        rewrite <- Hrows. f_equal. lia.
    + intros j r Hj. apply Hkeep. unfold st1. simpl.
      rewrite lookup_insert_ne; [done |]. intros <-. congruence.
    + rewrite Hsize. unfold st1. simpl.
      rewrite (map_size_insert_None _ _ _ Hfresh). lia.
Qed.

(** X13: the bulk helper of the test suite.  On a well-formed store, and
    with a date library that reads back what it writes, [_create_accounts]
    never fails its assertion; it returns the factory's accounts with
    consecutive ids, counted from the next id of the sequence; every one of
    them can be read back by its id, the accounts stored before are kept, and
    [GET /accounts] then lists all of them, old and new. *)
Theorem create_accounts_in_bulk (factory : list Account.t) st :
  date_round_trip →
  Account.well_formed st →
  factory ≠ [] →
  ∃ st' items,
    _create_accounts factory st =
      (Some (imap (fun k => set_id (Some (Account.next_id st + Z.of_nat k))) factory),
       st') ∧
    Account.next_id st' = Account.next_id st + Z.of_nat (length factory) ∧
    (∀ (k : nat) a, factory !! k = Some a →
       read_account (Account.next_id st + Z.of_nat k) st' =
         (Ok {| body :=
                  Account.serialize (set_id (Some (Account.next_id st + Z.of_nat k)) a);
                status_code := 200;
                response_headers := [] |}, st')) ∧
    (∀ j, is_Some (Account.table st !! j) →
       (read_account j st').1 = (read_account j st).1) ∧
    read_accounts st' =
      (Ok {| body := JArr items; status_code := 200; response_headers := [] |}, st') ∧
    length items = (size (Account.table st) + length factory)%nat.
Proof.
  intros Hdate Hwf Hne.
  destruct (create_accounts_bulk_run factory Hdate st Hwf)
    as (st' & Hrun & Hwf' & Hnext & Hrows & Hkeep & Hsize).
  exists st',
    (Account.serialize <$>
       ((fun kr => Account.of_row kr.1 kr.2) <$> map_to_list (Account.table st'))).
  split; [done |]. split; [done |]. split; [| split; [| split]].
  - intros k a Hk. rewrite (read_account_found _ _ _ (Hrows k a Hk)).
    by rewrite serialize_stored_row.
  - intros j [r Hj].
    rewrite (read_account_found _ _ _ Hj), (read_account_found _ _ _ (Hkeep j r Hj)).
    done.
  - apply read_accounts_nonempty. intros Hempty.
    destruct factory as [| a rest]; [done |].
    specialize (Hrows 0%nat a eq_refl). rewrite Hempty in Hrows.
    by rewrite lookup_empty in Hrows.
  - by rewrite !length_fmap, length_map_to_list.
Qed.

(** *** Reading and writing back *)

(** X14: the list and the single read agree.  Whatever
    [GET /accounts/<id>] answers with 200 is an item of the 200 answer of
    [GET /accounts] on the same store, and every item of that list is the
    200 answer of [GET /accounts/<id>] for some id. *)
Theorem list_agrees_with_read st :
  (∀ i b, read_account i st =
            (Ok {| body := b; status_code := 200; response_headers := [] |}, st) →
     ∃ items,
       read_accounts st =
         (Ok {| body := JArr items; status_code := 200; response_headers := [] |}, st) ∧
       b ∈ items) ∧
  (∀ items x,
     read_accounts st =
       (Ok {| body := JArr items; status_code := 200; response_headers := [] |}, st) →
     x ∈ items →
     ∃ i, read_account i st =
            (Ok {| body := x; status_code := 200; response_headers := [] |}, st)).
Proof.
  split.
  - intros i b Hread.
    destruct (Account.table st !! i) as [r |] eqn:Hrow.
    + rewrite (read_account_found _ _ _ Hrow) in Hread.
      inversion Hread as [Hb]. clear Hread.
      assert (Account.table st ≠ ∅) as Hne.
      { intros Hempty. rewrite Hempty in Hrow. by rewrite lookup_empty in Hrow. }
      eexists. split; [by apply read_accounts_nonempty |].
      apply list_elem_of_fmap_2, list_elem_of_fmap.
      exists (i, r). split; [done |]. by apply elem_of_map_to_list.
    + rewrite (read_account_missing _ _ Hrow) in Hread. discriminate.
  - intros items x Hlist Hx.
    destruct (decide (Account.table st = ∅)) as [Hempty | Hne].
    + unfold read_accounts in Hlist. revert Hlist. run_monad.
      rewrite Hempty, map_to_list_empty. discriminate.
    + rewrite (read_accounts_nonempty _ Hne) in Hlist.
      inversion Hlist as [Hitems]. clear Hlist. subst items.
      apply list_elem_of_fmap in Hx as (ac & -> & Hac).
      apply list_elem_of_fmap in Hac as ([i r] & -> & Hir).
      apply elem_of_map_to_list in Hir.
      exists i. by rewrite (read_account_found _ _ _ Hir).
Qed.

(** X15: putting back what was read changes nothing.  For a stored id, a
    [PUT /accounts/<id>] whose payload is the body that [GET /accounts/<id>]
    answers with is answered 200 with that same body, and the store stays
    exactly as it was.  The date library must read back the ISO text it
    writes. *)
Theorem put_back_what_was_read i st (r : Account.row) :
  date_round_trip →
  Account.table st !! i = Some r →
  ∃ b, read_account i st =
         (Ok {| body := b; status_code := 200; response_headers := [] |}, st) ∧
       update_account i (client_json b) st =
         (Ok {| body := b; status_code := 200; response_headers := [] |}, st).
Proof.
  intros Hdate Hrow.
  exists (Account.serialize (Account.of_row i r)).
  split; [by apply read_account_found |].
  rewrite (update_account_success i _ st (Account.serialize (Account.of_row i r))
             r (Account.of_row i r)).
  - f_equal. destruct st as [tbl nxt]. simpl in *. f_equal.
    apply insert_id. by destruct r.
  - done.
  - done.
  - done.
  - rewrite (deserialize_serialize _ _ Hdate). by destruct r.
Qed.

(** *** The sample stores are well formed *)

Lemma empty_store_well_formed : Account.well_formed empty_store.
Proof. intros i [r Hr]. simpl in Hr. by rewrite lookup_empty in Hr. Qed.

Lemma alice_store_well_formed : Account.well_formed alice_store.
Proof.
  intros i [r Hr]. simpl in Hr.
  apply lookup_singleton_Some in Hr as [<- _]. simpl. lia.
Qed.

End Properties.

(** * The properties at the sample requests

    Dates are represented by their ISO text here. *)

#[local] Existing Instance iso_text_dates.

Lemma create_content_type_guard_witness :
  headers_get "Content-Type" charset_request ≠ Some "application/json" ∧
  create_accounts charset_request alice_store =
    (Raise (HTTPException 415 "Content-Type must be application/json"), alice_store) ∧
  status_of (create_accounts charset_request alice_store).1 = 415.
Proof.
  assert (headers_get "Content-Type" charset_request ≠ Some "application/json") as Hne.
  { vm_compute. discriminate. }
  split; [exact Hne |].
  exact (proj2 (create_content_type_guard
                  charset_request alice_store) Hne).
Defined.

Lemma create_accounts_created_witness :
  create_accounts full_request alice_store =
    (Ok {| body :=
             JObj [("id", JNum 2);
                   ("name", JStr "benjamin");
                   ("email", JStr "benjamin@gmail.com");
                   ("address", JStr "12 Harbour Road");
                   ("phone_number", JStr "555-0199");
                   ("date_joined", JStr "2026-01-01")];
           status_code := 201;
           response_headers := [("Location", "/")] |},
     {| Account.table :=
          <[2 := benjamin]> (Account.table alice_store);
        Account.next_id := 3 |}).
Proof.
  exact (create_accounts_created full_request alice_store full_payload
           (JStr "benjamin") (JStr "benjamin@gmail.com")
           (JStr "12 Harbour Road") (JStr "555-0199")
           eq_refl eq_refl eq_refl eq_refl eq_refl eq_refl).
Defined.

Lemma create_accounts_missing_field_witness :
  ∃ f', f' ∈ Account.required_fields ∧
        json_item (JObj [("name", JStr "not enough data")]) f' = None ∧
        create_accounts name_only_request alice_store =
          (Raise (DataValidationError f'), alice_store) ∧
        status_of (create_accounts name_only_request alice_store).1
          = 400.
Proof.
  apply (create_accounts_missing_field
           name_only_request alice_store
           (JObj [("name", JStr "not enough data")]) "email").
  - reflexivity.
  - reflexivity.
  - unfold Account.required_fields. rewrite !elem_of_cons. tauto.
  - reflexivity.
Defined.

Lemma read_accounts_lists_store_witness :
  (∃ items,
     read_accounts alice_store =
       (Ok {| body := JArr items; status_code := 200; response_headers := [] |},
        alice_store) ∧
     (∀ i r, Account.table alice_store !! i = Some r →
             Account.serialize (Account.of_row i r) ∈ items) ∧
     (∀ x, x ∈ items →
           ∃ i r, Account.table alice_store !! i = Some r ∧
                  x = Account.serialize (Account.of_row i r)) ∧
     length items = size (Account.table alice_store)) ∧
  read_accounts empty_store =
    (Ok {| body := JObj [("error", JStr "accounts not found")];
           status_code := 404;
           response_headers := [] |}, empty_store).
Proof.
  split.
  - apply (proj1 (read_accounts_lists_store alice_store)).
    apply map_non_empty_singleton.
  - apply (proj2 (read_accounts_lists_store empty_store)).
    reflexivity.
Defined.

Lemma update_account_requires_body_witness :
  update_account 0 empty_request empty_store =
    (Ok {| body := JObj [("error", JStr "id not found")];
           status_code := 405;
           response_headers := [] |}, empty_store) ∧
  update_account 1 null_request alice_store =
    (Ok {| body := JObj [("error", JStr "id not found")];
           status_code := 405;
           response_headers := [] |}, alice_store).
Proof.
  split.
  - apply (update_account_requires_body 0 empty_request empty_store (JObj []));
      reflexivity.
  - apply (update_account_requires_body 1 null_request alice_store JNull);
      reflexivity.
Defined.

(** The claim C8 as it was stated fails for an absent body: a
    [PUT /accounts/0] that declares JSON and has no body is aborted by
    [request.get_json()] with 400, before the test for an empty document;
    it is not answered 405. *)
Lemma update_account_absent_body_counterexample :
  update_account 0 absent_body_request empty_store =
    (Raise (HTTPException 400 "Failed to decode JSON object"), empty_store) ∧
  status_of (update_account 0 absent_body_request empty_store).1 ≠ 405.
Proof. split; [reflexivity | vm_compute; discriminate]. Qed.


Lemma update_account_missing_field_raises_witness :
  (∃ f', Account.deserialize (Account.of_row 1 alice) city_payload
         = Raise (DataValidationError f')) ∧
  update_account 1 city_request alice_store =
    (Raise (TypeError "Object of type DataValidationError is not JSON serializable"),
     alice_store) ∧
  status_of (update_account 1 city_request alice_store).1 = 500.
Proof.
  apply (update_account_missing_field_raises
           1 city_request alice_store city_payload alice "name").
  - vm_compute. reflexivity.
  - reflexivity.
  - reflexivity.
  - unfold Account.required_fields. rewrite !elem_of_cons. tauto.
  - reflexivity.
Defined.

Lemma update_account_full_payload_witness :
  update_account 1 full_request alice_store =
    (Ok {| body :=
             JObj [("id", JNum 1);
                   ("name", JStr "benjamin");
                   ("email", JStr "benjamin@gmail.com");
                   ("address", JStr "12 Harbour Road");
                   ("phone_number", JStr "555-0199");
                   ("date_joined", JStr "2026-01-01")];
           status_code := 200;
           response_headers := [] |},
     {| Account.table :=
          <[1 := benjamin]> (Account.table alice_store);
        Account.next_id := 2 |}) ∧
  Account.find 1
    {| Account.table := <[1 := benjamin]> (Account.table alice_store);
       Account.next_id := 2 |} =
    (Ok (Some (Account.of_row 1 benjamin)),
     {| Account.table := <[1 := benjamin]> (Account.table alice_store);
        Account.next_id := 2 |}).
Proof.
  exact (update_account_full_payload
                  1 full_request alice_store full_payload alice
                  (JStr "benjamin") (JStr "benjamin@gmail.com")
                  (JStr "12 Harbour Road") (JStr "555-0199")
                  ltac:(vm_compute; reflexivity)
                  eq_refl eq_refl eq_refl eq_refl eq_refl).
Defined.

Lemma delete_account_outcomes_witness :
  delete_account 1 alice_store =
    (Ok {| body := JObj []; status_code := 204; response_headers := [] |},
     {| Account.table := delete 1 (Account.table alice_store);
        Account.next_id := 2 |}) ∧
  delete_account 22 alice_store =
    (Ok {| body := JObj [("error", JStr "id not found")];
           status_code := 404;
           response_headers := [] |}, alice_store).
Proof.
  split.
  - exact (proj1 (proj1 (delete_account_outcomes 1 alice_store)
                    alice ltac:(vm_compute; reflexivity))).
  - apply (proj2 (delete_account_outcomes 22 alice_store)).
    vm_compute. reflexivity.
Defined.

(** ** The further properties at the sample requests *)

Lemma iso_text_round_trip : date_round_trip.
Proof. intros d. reflexivity. Defined.

Lemma read_account_outcomes_witness :
  read_account 1 alice_store =
    (Ok {| body := Account.serialize (Account.of_row 1 alice);
           status_code := 200;
           response_headers := [] |}, alice_store) ∧
  read_account 20 empty_store =
    (Ok {| body := JObj [("error", JStr "account not found")];
           status_code := 404;
           response_headers := [] |}, empty_store).
Proof.
  split.
  - exact (proj1 (read_account_outcomes 1 alice_store) alice
             ltac:(vm_compute; reflexivity)).
  - exact (proj2 (read_account_outcomes 20 empty_store) ltac:(vm_compute; reflexivity)).
Defined.

Lemma check_content_type_any_media_witness :
  check_content_type "" blank_type_request empty_store =
    (Raise (HTTPException 415 "Content-Type must be "), empty_store) ∧
  check_content_type "text/plain" plain_text_request empty_store = (Ok tt, empty_store).
Proof.
  split.
  - apply (proj2 (check_content_type_any_media "" blank_type_request empty_store)).
    intros [_ Hne]. by apply Hne.
  - apply (proj1 (check_content_type_any_media "text/plain" plain_text_request
                    empty_store)).
    split; [reflexivity | discriminate].
Defined.

Lemma failed_requests_keep_store_witness :
  (create_accounts name_only_request alice_store).2 = alice_store ∧
  (update_account 1 city_request alice_store).2 = alice_store ∧
  (update_account 1 absent_body_request alice_store).2 = alice_store ∧
  (delete_account 22 alice_store).2 = alice_store.
Proof.
  split; [| split; [| split]].
  - apply (proj1 (failed_requests_keep_store 22 name_only_request alice_store)).
    vm_compute. discriminate.
  - apply (proj1 (proj2 (failed_requests_keep_store 1 city_request alice_store))).
    vm_compute. discriminate.
  - apply (proj1 (proj2 (failed_requests_keep_store 1 absent_body_request
                           alice_store))).
    vm_compute. discriminate.
  - apply (proj2 (proj2 (failed_requests_keep_store 22 city_request alice_store))).
    vm_compute. discriminate.
Defined.

Lemma create_then_read_witness :
  ∃ i, json_item (Account.serialize (Account.of_row 2 benjamin)) "id" = Some (JNum i) ∧
       read_account i two_account_store =
         (Ok {| body := Account.serialize (Account.of_row 2 benjamin);
                status_code := 200;
                response_headers := [] |}, two_account_store).
Proof.
  exact (create_then_read full_request alice_store
           {| body := Account.serialize (Account.of_row 2 benjamin);
              status_code := 201;
              response_headers := [("Location", "/")] |}
           two_account_store ltac:(vm_compute; reflexivity)).
Defined.

Lemma update_then_read_witness :
  read_account 1 updated_store =
    (Ok {| body := Account.serialize (Account.of_row 1 benjamin);
           status_code := 200;
           response_headers := [] |}, updated_store).
Proof.
  exact (update_then_read 1 full_request alice_store
           {| body := Account.serialize (Account.of_row 1 benjamin);
              status_code := 200;
              response_headers := [] |}
           updated_store ltac:(vm_compute; reflexivity) eq_refl).
Defined.

Lemma writers_touch_one_row_witness :
  (Account.table (update_account 1 full_request two_account_store).2 !! 2
     = Account.table two_account_store !! 2 ∧
   Account.table (delete_account 1 two_account_store).2 !! 2
     = Account.table two_account_store !! 2) ∧
  Account.table (create_accounts full_request alice_store).2 !! 1 = Some alice.
Proof.
  split.
  - apply (proj1 (writers_touch_one_row 1 2 full_request two_account_store)). lia.
  - apply (proj2 (proj2 (proj2 (writers_touch_one_row 1 1 full_request alice_store)))).
    + apply alice_store_well_formed.
    + vm_compute. reflexivity.
Defined.

Lemma writers_stored_ids_witness :
  dom (Account.table two_account_store) = {[ 2 ]} ∪ dom (Account.table alice_store).
Proof.
  exact (proj2 (proj2 (writers_stored_ids 1 full_request alice_store))
           {| body := Account.serialize (Account.of_row 2 benjamin);
              status_code := 201;
              response_headers := [("Location", "/")] |}
           two_account_store ltac:(vm_compute; reflexivity)).
Defined.

Lemma handlers_keep_well_formed_witness :
  Account.well_formed (create_accounts full_request alice_store).2 ∧
  Account.well_formed (update_account 1 full_request alice_store).2 ∧
  Account.well_formed (delete_account 1 alice_store).2 ∧
  Account.well_formed (read_accounts alice_store).2 ∧
  Account.well_formed (read_account 1 alice_store).2.
Proof.
  apply (handlers_keep_well_formed 1 full_request alice_store).
  apply alice_store_well_formed.
Defined.

Lemma post_serialized_account_witness :
  create_accounts (client_json (Account.serialize benjamin_account)) alice_store =
    (Ok {| body := Account.serialize (Account.of_row 2 benjamin);
           status_code := 201;
           response_headers := [("Location", "/")] |}, two_account_store).
Proof.
  exact (proj1 (post_serialized_account benjamin_account alice_store
                  iso_text_round_trip)).
Defined.

Lemma create_accounts_in_bulk_witness :
  ∃ st' items,
    _create_accounts [alice_account; benjamin_account] empty_store =
      (Some [set_id (Some 1) alice_account; set_id (Some 2) benjamin_account], st') ∧
    Account.next_id st' = 3 ∧
    (∀ (k : nat) a, [alice_account; benjamin_account] !! k = Some a →
       read_account (1 + Z.of_nat k) st' =
         (Ok {| body := Account.serialize (set_id (Some (1 + Z.of_nat k)) a);
                status_code := 200;
                response_headers := [] |}, st')) ∧
    (∀ j, is_Some (Account.table empty_store !! j) →
       (read_account j st').1 = (read_account j empty_store).1) ∧
    read_accounts st' =
      (Ok {| body := JArr items; status_code := 200; response_headers := [] |}, st') ∧
    length items = 2%nat.
Proof.
  exact (create_accounts_in_bulk [alice_account; benjamin_account] empty_store
           iso_text_round_trip empty_store_well_formed ltac:(discriminate)).
Defined.

Lemma list_agrees_with_read_witness :
  (∃ items,
     read_accounts alice_store =
       (Ok {| body := JArr items; status_code := 200; response_headers := [] |},
        alice_store) ∧
     Account.serialize (Account.of_row 1 alice) ∈ items) ∧
  (∃ i, read_account i alice_store =
          (Ok {| body := Account.serialize (Account.of_row 1 alice);
                 status_code := 200;
                 response_headers := [] |}, alice_store)).
Proof.
  split.
  - exact (proj1 (list_agrees_with_read alice_store) 1
             (Account.serialize (Account.of_row 1 alice))
             ltac:(vm_compute; reflexivity)).
  - exact (proj2 (list_agrees_with_read alice_store)
             [Account.serialize (Account.of_row 1 alice)]
             (Account.serialize (Account.of_row 1 alice))
             ltac:(vm_compute; reflexivity)
             (list_elem_of_here _ _)).
Defined.

Lemma put_back_what_was_read_witness :
  ∃ b, read_account 1 alice_store =
         (Ok {| body := b; status_code := 200; response_headers := [] |}, alice_store) ∧
       update_account 1 (client_json b) alice_store =
         (Ok {| body := b; status_code := 200; response_headers := [] |}, alice_store).
Proof.
  exact (put_back_what_was_read 1 alice_store alice iso_text_round_trip
           ltac:(vm_compute; reflexivity)).
Defined.
